(** * The AppleScript execution bridge: [handle_call_tool]

    A shallow embedding of the tool handler of
    [src/applescript_mcp/server.py] (lines 180-229) and the properties of
    its validation, staging, invocation, classification and cleanup.

    The handler is effectful Python: it creates a named temporary file,
    writes and flushes it, runs [/usr/bin/osascript] through
    [subprocess.run], unlinks the file and answers with one text block.
    It is embedded in a small monad [M] that threads the file system,
    logs every library call that is made, and carries Python exceptions,
    with combinators for [try/except], [try/finally] and [with].

    What the Python library calls answer is not decided by the handler:
    it is given by a [World], one oracle per call.  Every call either
    returns or raises a subclass of [Exception]; a call that blocks for
    ever and the asynchronous [BaseException]s ([KeyboardInterrupt],
    [CancelledError]) are outside the model. *)

From stdpp Require Import base option list gmap strings pretty.

Open Scope string_scope.
Open Scope list_scope.

(** ** Python values reaching the handler

    [arguments] is [dict[str, Any] | None]: a JSON object decoded by the
    protocol layer.  The handler does three things with a value: look up
    the attribute [encode], format it in an f-string, and hand it to
    [subprocess.run].  [PyOther] stands for the remaining JSON values
    (floats, lists, objects) by their type name and their [str()].
    A Python [str] is a Rocq [string] holding the UTF-8 encoding of its
    text, so [.encode('utf-8')] keeps the representation; a [str] with a
    lone surrogate, which has no UTF-8 encoding, is not represented. *)

Inductive pyval : Type :=
| PyNone
| PyBool (b : bool)
| PyInt (z : Z)
| PyStr (s : string)
| PyOther (tyname : string) (shown : string).

#[global] Instance pyval_eq_dec : EqDecision pyval.
Proof. solve_decision. Defined.

(** [type(v).__name__] *)
Definition type_name (v : pyval) : string :=
  match v with
  | PyNone => "NoneType"
  | PyBool _ => "bool"
  | PyInt _ => "int"
  | PyStr _ => "str"
  | PyOther ty _ => ty
  end.

(** [format(v, "")], what an f-string field [{v}] produces. *)
Definition py_format (v : pyval) : string :=
  match v with
  | PyNone => "None"
  | PyBool true => "True"
  | PyBool false => "False"
  | PyInt z => pretty z
  | PyStr s => s
  | PyOther _ shown => shown
  end.

(** ** Exceptions *)

Inductive exn_class : Type :=
| ValueError
| KeyError
| AttributeError
| TypeError
| OSError
| TimeoutExpired
| UnicodeError.

#[global] Instance exn_class_eq_dec : EqDecision exn_class.
Proof. solve_decision. Defined.

(** An exception object: its class and its [str()]. *)
Record exn : Type := Exn { exn_class_of : exn_class; exn_str : string }.

(** ** The response: [list[TextContent | ImageContent | EmbeddedResource]] *)

Inductive Content : Type :=
| TextContent (text : string)
| ImageContent (data mimeType : string)
| EmbeddedResource (uri : string).

(** ** The operating system as the handler sees it *)

(** [subprocess.run(cmd, capture_output=True, text=True, timeout=t)] either
    returns a [CompletedProcess] (return code, captured standard output and
    standard error as text) or raises: [TimeoutExpired] when the timeout
    expired, [OSError] when the interpreter could not be launched,
    [TypeError] for a timeout that is no number, [UnicodeError] when the
    captured bytes do not decode. *)
Inductive RunOutcome : Type :=
| Completed (returncode : Z) (stdout stderr : string)
| RunRaises (e : exn).

(** The files on disk, by path, and the bytes written to the open temporary
    file that are still in its buffer. *)
Record OS : Type := mkOS {
  disk : gmap string string;
  pending : string
}.

(** The library calls the handler makes, in order. *)
Inductive Event : Type :=
| EvCreate (suffix : string)
| EvWrite (path data : string)
| EvFlush (path : string)
| EvRun (cmd : list string) (timeout : pyval)
| EvUnlink (path : string)
| EvClose (path : string).

(** What the environment answers to each call.  [w_tempfile] is the fresh
    path chosen for the temporary file, without its suffix; [None] for the
    other file operations means that the call returned.  The interpreter
    sees the command line, the timeout and the disk; [w_run] is what
    [subprocess.run] answers and [w_effect] the disk that the interpreter
    process leaves behind: a script may write, change and remove files, its
    own staged file included. *)
Record World : Type := mkWorld {
  w_tempfile : exn + string;
  w_write : option exn;
  w_flush : option exn;
  w_run : list string → pyval → gmap string string → RunOutcome;
  w_unlink : option exn;
  w_close : option exn;
  w_effect : list string → pyval → gmap string string → gmap string string
}.

(** The effect of an interpreter that touches no file. *)
Definition no_effect (cmd : list string) (timeout : pyval)
    (dsk : gmap string string) : gmap string string := dsk.

(** ** The monad: state, log of calls, exceptions *)

Inductive Res (A : Type) : Type :=
| Return (a : A)
| Raise (e : exn).
Arguments Return {A} a.
Arguments Raise {A} e.

Definition M (A : Type) : Type := World → OS → Res A * OS * list Event.

Definition ret {A} (a : A) : M A := λ _ s, (Return a, s, []).

Definition raise {A} (e : exn) : M A := λ _ s, (Raise e, s, []).

Definition bind {A B} (m : M A) (k : A → M B) : M B := λ w s,
  match m w s with
  | (Return a, s1, l1) =>
      match k a w s1 with (r, s2, l2) => (r, s2, l1 ++ l2) end
  | (Raise e, s1, l1) => (Raise e, s1, l1)
  end.

#[global] Instance M_ret : MRet M := @ret.
#[global] Instance M_bind : MBind M := λ A B k m, bind m k.

(** [try: body / except ...:] The handler list is one function: [None] when
    no [except] clause matches the exception, which then propagates. *)
Definition try_except {A} (body : M A) (handlers : exn → option (M A)) : M A :=
  λ w s,
  match body w s with
  | (Return a, s1, l1) => (Return a, s1, l1)
  | (Raise e, s1, l1) =>
      match handlers e with
      | Some h => match h w s1 with (r, s2, l2) => (r, s2, l1 ++ l2) end
      | None => (Raise e, s1, l1)
      end
  end.

(** [try: body / finally: fin] The [finally] block runs on every exit of the
    body; an exception of its own replaces the outcome of the body. *)
Definition try_finally {A} (body : M A) (fin : M unit) : M A := λ w s,
  match body w s with
  | (r, s1, l1) =>
      match fin w s1 with
      | (Return _, s2, l2) => (r, s2, l1 ++ l2)
      | (Raise e, s2, l2) => (Raise e, s2, l1 ++ l2)
      end
  end.

(** ** The library calls *)

(** [tempfile.NamedTemporaryFile(suffix=..., delete=False)]: a new empty
    file whose name ends with the suffix, opened for writing. *)
Definition NamedTemporaryFile (suffix : string) : M string := λ w s,
  match w_tempfile w with
  | inl e => (Raise e, s, [EvCreate suffix])
  | inr stem =>
      let name := stem +:+ suffix in
      (Return name, mkOS (<[name := ""]> (disk s)) "", [EvCreate suffix])
  end.

(** [temp.write(data)]: into the buffer of the file object. *)
Definition temp_write (temp data : string) : M unit := λ w s,
  match w_write w with
  | Some e => (Raise e, s, [EvWrite temp data])
  | None => (Return tt, mkOS (disk s) (pending s +:+ data), [EvWrite temp data])
  end.

(** The buffer is appended to the file, when the path still names it. *)
Definition commit (temp : string) (s : OS) : OS :=
  match disk s !! temp with
  | Some content => mkOS (<[temp := content +:+ pending s]> (disk s)) ""
  | None => mkOS (disk s) ""
  end.

(** [temp.flush()]: the buffer reaches the file. *)
Definition temp_flush (temp : string) : M unit := λ w s,
  match w_flush w with
  | Some e => (Raise e, s, [EvFlush temp])
  | None => (Return tt, commit temp s, [EvFlush temp])
  end.

(** Leaving the [with] block closes the file.  Closing flushes what is
    still buffered, which is the only step of it that is modelled to
    fail; with an empty buffer it releases the descriptor. *)
Definition temp_close (temp : string) : M unit := λ w s,
  if decide (pending s = "") then (Return tt, s, [EvClose temp])
  else
    match w_close w with
    | Some e => (Raise e, mkOS (disk s) "", [EvClose temp])
    | None => (Return tt, commit temp s, [EvClose temp])
    end.

(** [with NamedTemporaryFile(...) as temp: body]: the file is closed when
    the body is left, by a [return] as by an exception; an exception of the
    closing replaces either. *)
Definition with_NamedTemporaryFile {A} (suffix : string) (body : string → M A)
  : M A := λ w s,
  match NamedTemporaryFile suffix w s with
  | (Raise e, s0, l0) => (Raise e, s0, l0)
  | (Return temp, s0, l0) =>
      match body temp w s0 with
      | (r, s1, l1) =>
          match temp_close temp w s1 with
          | (Return _, s2, l2) => (r, s2, l0 ++ l1 ++ l2)
          | (Raise e, s2, l2) => (Raise e, s2, l0 ++ l1 ++ l2)
          end
      end
  end.

Record CompletedProcess : Type := mkCompleted {
  returncode : Z;
  stdout : string;
  stderr : string
}.

(** The state when [subprocess.run] is over: the disk is what the
    interpreter process made of it. *)
Definition ran (cmd : list string) (timeout : pyval) (w : World) (s : OS) : OS :=
  mkOS (w_effect w cmd timeout (disk s)) (pending s).

(** [subprocess.run(cmd, capture_output=True, text=True, timeout=timeout)] *)
Definition subprocess_run (cmd : list string) (timeout : pyval)
  : M CompletedProcess := λ w s,
  match w_run w cmd timeout (disk s) with
  | Completed rc out err =>
      (Return (mkCompleted rc out err), ran cmd timeout w s, [EvRun cmd timeout])
  | RunRaises e => (Raise e, ran cmd timeout w s, [EvRun cmd timeout])
  end.

(** [os.unlink(path)] *)
Definition os_unlink (path : string) : M unit := λ w s,
  match w_unlink w with
  | Some e => (Raise e, s, [EvUnlink path])
  | None => (Return tt, mkOS (delete path (disk s)) (pending s), [EvUnlink path])
  end.

(** ** Operations on [arguments] *)

(** [not arguments] is true for [None] and for the empty dict. *)
Definition py_not (arguments : option (gmap string pyval)) : bool :=
  match arguments with
  | None => true
  | Some d => bool_decide (d = ∅)
  end.

(** [key not in arguments]; Python evaluates it only when [not arguments]
    is false, so never on [None]. *)
Definition not_in (key : string) (arguments : option (gmap string pyval)) : bool :=
  match arguments with
  | None => true
  | Some d => match d !! key with Some _ => false | None => true end
  end.

(** [arguments.get(key, dflt)] *)
Definition dict_get (arguments : option (gmap string pyval)) (key : string)
    (dflt : pyval) : pyval :=
  match arguments with
  | None => dflt
  | Some d => default dflt (d !! key)
  end.

(** [arguments[key]] *)
Definition getitem (arguments : option (gmap string pyval)) (key : string)
  : M pyval :=
  match arguments with
  | None => raise (Exn TypeError "'NoneType' object is not subscriptable")
  | Some d =>
      match d !! key with
      | Some v => ret v
      | None => raise (Exn KeyError ("'" +:+ key +:+ "'"))
      end
  end.

(** [v.encode('utf-8')]: only a [str] has the method. *)
Definition encode_utf8 (v : pyval) : M string :=
  match v with
  | PyStr s => ret s
  | _ => raise (Exn AttributeError
                  ("'" +:+ type_name v +:+ "' object has no attribute 'encode'"))
  end.

(** ** The handler *)

Definition handle_call_tool (name : string)
    (arguments : option (gmap string pyval)) : M (list Content) :=
  try_except
    (if String.eqb name "applescript_execute" then
       if py_not arguments || not_in "code_snippet" arguments then
         raise (Exn ValueError "Missing code_snippet argument")
       else
         let timeout := dict_get arguments "timeout" (PyInt 60) in
         with_NamedTemporaryFile ".scpt" (λ temp,
           let temp_path := temp in
           try_finally
             (try_except
                (snippet ← getitem arguments "code_snippet";
                 data ← encode_utf8 snippet;
                 temp_write temp data;;
                 temp_flush temp;;
                 let cmd := ["/usr/bin/osascript"; temp_path] in
                 result ← subprocess_run cmd timeout;
                 if negb (returncode result =? 0)%Z then
                   let error_message :=
                     "AppleScript execution failed: " +:+ stderr result in
                   ret [TextContent error_message]
                 else
                   ret [TextContent (stdout result)])
                (λ e,
                   if decide (exn_class_of e = TimeoutExpired) then
                     Some (ret [TextContent
                       ("AppleScript execution timed out after "
                          +:+ py_format timeout +:+ " seconds")])
                   else
                     Some (ret [TextContent
                       ("Error executing AppleScript: " +:+ exn_str e)])))
             (try_except (os_unlink temp_path) (λ _, Some (ret tt))))
     else
       raise (Exn ValueError ("Unknown tool: " +:+ name)))
    (λ e, Some (ret [TextContent ("Error: " +:+ exn_str e)])).

(** One call of the handler in a world, from a state of the disk: the
    answer, the state left behind, and the library calls made. *)
Definition call (name : string) (arguments : option (gmap string pyval))
    (w : World) (s : OS) : Res (list Content) * OS * list Event :=
  handle_call_tool name arguments w s.

Definition response {A} (x : Res A * OS * list Event) : Res A := x.1.1.
Definition final {A} (x : Res A * OS * list Event) : OS := x.1.2.
Definition events {A} (x : Res A * OS * list Event) : list Event := x.2.

(** ** The blocks of the handler

    Names for the [try] block of lines 196-218 and the [finally] block of
    lines 219-224, as they stand in [handle_call_tool]. *)

Definition guarded (arguments : option (gmap string pyval)) (timeout : pyval)
    (temp : string) : M (list Content) :=
  try_except
    (snippet ← getitem arguments "code_snippet";
     data ← encode_utf8 snippet;
     temp_write temp data;;
     temp_flush temp;;
     let cmd := ["/usr/bin/osascript"; temp] in
     result ← subprocess_run cmd timeout;
     if negb (returncode result =? 0)%Z then
       let error_message :=
         "AppleScript execution failed: " +:+ stderr result in
       ret [TextContent error_message]
     else
       ret [TextContent (stdout result)])
    (λ e,
       if decide (exn_class_of e = TimeoutExpired) then
         Some (ret [TextContent
           ("AppleScript execution timed out after "
              +:+ py_format timeout +:+ " seconds")])
       else
         Some (ret [TextContent
           ("Error executing AppleScript: " +:+ exn_str e)])).

Definition cleanup (temp_path : string) : M unit :=
  try_except (os_unlink temp_path) (λ _, Some (ret tt)).

(** The timeout of line 191. *)
Definition requested_timeout (arguments : option (gmap string pyval)) : pyval :=
  dict_get arguments "timeout" (PyInt 60).

(** The command line of line 202. *)
Definition osascript (temp_path : string) : list string :=
  ["/usr/bin/osascript"; temp_path].

(** The disk when the interpreter starts: the script is in the temporary
    file. *)
Definition staged_disk (stem snippet : string) (s : OS) : gmap string string :=
  <[stem +:+ ".scpt" := snippet]> (disk s).

(** The disk as the interpreter leaves it after a run on the staged
    script. *)
Definition disk_left (w : World) (stem snippet : string) (t : pyval) (s : OS)
  : gmap string string :=
  w_effect w (osascript (stem +:+ ".scpt")) t (staged_disk stem snippet s).

(** Lines 210-218 as a function of what [subprocess.run] did. *)
Definition outcome_text (timeout : pyval) (o : RunOutcome) : string :=
  match o with
  | Completed rc out err =>
      if negb (rc =? 0)%Z then "AppleScript execution failed: " +:+ err
      else out
  | RunRaises e =>
      if decide (exn_class_of e = TimeoutExpired) then
        "AppleScript execution timed out after " +:+ py_format timeout
          +:+ " seconds"
      else "Error executing AppleScript: " +:+ exn_str e
  end.

(** The state after the [finally] block. *)
Definition after_cleanup (temp : string) (w : World) (s : OS) : OS :=
  match w_unlink w with
  | None => mkOS (delete temp (disk s)) (pending s)
  | Some _ => s
  end.

(** The state after the file is closed. *)
Definition after_close (temp : string) (w : World) (s : OS) : OS :=
  if decide (pending s = "") then s
  else match w_close w with
       | Some _ => mkOS (disk s) ""
       | None => commit temp s
       end.

(** What is answered when the [try] block answered [text]: the same, unless
    closing the file raises, which the outer [except] reports. *)
Definition text_after_close (w : World) (s : OS) (text : string) : string :=
  if decide (pending s = "") then text
  else match w_close w with
       | Some e => "Error: " +:+ exn_str e
       | None => text
       end.

(** The same world with another answer to [os.unlink]. *)
Definition set_unlink (u : option exn) (w : World) : World :=
  mkWorld (w_tempfile w) (w_write w) (w_flush w) (w_run w) u (w_close w)
    (w_effect w).

(** ** Vocabulary of the properties *)

(** The request carries no script: there are no arguments, or they have no
    key [code_snippet]. *)
Definition script_missing (arguments : option (gmap string pyval)) : Prop :=
  match arguments with
  | None => True
  | Some d => d !! "code_snippet" = None
  end.

(** The request has no script or an empty one. *)
Definition script_missing_or_empty
    (arguments : option (gmap string pyval)) : Prop :=
  script_missing arguments
  ∨ ∃ d, arguments = Some d ∧ d !! "code_snippet" = Some (PyStr "").

(** The request names no timeout. *)
Definition timeout_omitted (arguments : option (gmap string pyval)) : Prop :=
  match arguments with
  | None => True
  | Some d => d !! "timeout" = None
  end.

(** The script is a string and the temporary file was created, written and
    flushed. *)
Definition staged_ok (d : gmap string pyval) (w : World)
    (snippet stem : string) : Prop :=
  d !! "code_snippet" = Some (PyStr snippet) ∧ w_tempfile w = inr stem
  ∧ w_write w = None ∧ w_flush w = None.

(** The answer is an error of the bridge itself, raised before or around
    the execution: the message of the outer [except]. *)
Definition invalid_request (r : Res (list Content)) : Prop :=
  ∃ detail, r = Return [TextContent ("Error: " +:+ detail)].

(** No temporary file was asked for and no interpreter was run. *)
Definition nothing_staged_nothing_run (l : list Event) : Prop :=
  (∀ suffix, EvCreate suffix ∉ l) ∧ (∀ cmd t, EvRun cmd t ∉ l).

(** A text that reports a failure: one of the four messages of the
    handler. *)
Definition diagnostic (text : string) : Prop :=
  ∃ detail,
    text = "Error: " +:+ detail
    ∨ text = "AppleScript execution failed: " +:+ detail
    ∨ text = "AppleScript execution timed out after " +:+ detail +:+ " seconds"
    ∨ text = "Error executing AppleScript: " +:+ detail.

(** A text that is the standard output of an interpreter that exited
    with code 0. *)
Definition captured_stdout (w : World) (text : string) : Prop :=
  ∃ cmd timeout dsk err, w_run w cmd timeout dsk = Completed 0 text err.

(** ** Worlds and requests for the examples *)

(** An interpreter that knows one script, and the empty one. *)
Definition trivial_interpreter (cmd : list string) (timeout : pyval)
    (d : gmap string string) : RunOutcome :=
  match cmd with
  | [_; path] =>
      match d !! path with
      | Some "return 2+2" => Completed 0 "4" ""
      | Some "" => Completed 0 "" ""
      | Some _ => Completed 1 "" "syntax error"
      | None => Completed 1 "" "no such file"
      end
  | _ => RunRaises (Exn OSError "bad command line")
  end.

Definition quiet_world : World :=
  mkWorld (inr "/tmp/tmpab12cd") None None trivial_interpreter None None
    no_effect.

(** A world in which the temporary file cannot be removed. *)
Definition stubborn_world : World :=
  set_unlink (Some (Exn OSError "[Errno 13] Permission denied")) quiet_world.


(** A world with a full disk: the script is buffered, flushing it fails,
    and so does closing the file. *)
Definition full_disk_world : World :=
  mkWorld (inr "/tmp/tmpab12cd") None
    (Some (Exn OSError "[Errno 28] No space left on device"))
    trivial_interpreter None
    (Some (Exn OSError "[Errno 28] No space left on device"))
    no_effect.

Definition empty_os : OS := mkOS ∅ "".

Definition two_plus_two : gmap string pyval :=
  {[ "code_snippet" := PyStr "return 2+2"; "timeout" := PyInt 5 ]}.

Definition no_timeout_given : gmap string pyval :=
  {[ "code_snippet" := PyStr "return 2+2" ]}.



Definition empty_script : gmap string pyval :=
  {[ "code_snippet" := PyStr "" ]}.

Definition script_is_a_number : gmap string pyval :=
  {[ "code_snippet" := PyInt 7 ]}.

(** ** The tool catalogue: [handle_list_tools]

    The handler of lines 53-178 returns one [types.Tool].  Its input schema
    is a JSON value, a Python dict literal whose order is kept. *)

#[local] Unset Elimination Schemes.
Inductive json : Type :=
| JString (s : string)
| JArray (items : list json)
| JObject (fields : list (string * json)).
#[local] Set Elimination Schemes.

Record Tool : Type := mkTool {
  tool_name : string;
  tool_description : string;
  inputSchema : json
}.

(** The documentation text of lines 59-162 is a constant of some hundred
    lines that no property reads: it is the parameter [description]. *)
Definition handle_list_tools (description : string) : list Tool :=
  [ mkTool
      "applescript_execute"
      description
      (JObject
         [ ("type", JString "object");
           ("properties",
            JObject
              [ ("code_snippet",
                 JObject
                   [ ("type", JString "string");
                     ("description",
                      JString "Complete AppleScript code to execute. Must follow all formatting requirements specified in the tool description, especially date/time formats for Reminders and Calendar apps. Include error handling where appropriate.") ]);
                ("timeout",
                 JObject
                   [ ("type", JString "integer");
                     ("description",
                      JString "Command execution timeout in seconds (default: 60)") ]) ]);
           ("required", JArray [ JString "code_snippet" ]) ]) ].

(** [obj[key]], when [obj] is an object that has the key. *)
Fixpoint assoc (key : string) (fields : list (string * json)) : option json :=
  match fields with
  | [] => None
  | (k, v) :: rest => if String.eqb k key then Some v else assoc key rest
  end.

Definition json_field (key : string) (j : json) : option json :=
  match j with
  | JObject fields => assoc key fields
  | _ => None
  end.

(** The keys a schema lists under [required]. *)
Definition required_keys (schema : json) : list string :=
  match json_field "required" schema with
  | Some (JArray items) =>
      omap (λ j, match j with JString s => Some s | _ => None end) items
  | _ => []
  end.

(** The keys a schema declares under [properties]. *)
Definition declared_properties (schema : json) : list string :=
  match json_field "properties" schema with
  | Some (JObject fields) => fields.*1
  | _ => []
  end.

(** The type a schema declares for a property. *)
Definition declared_type (schema : json) (key : string) : option string :=
  match json_field "properties" schema with
  | Some props =>
      match json_field key props with
      | Some prop =>
          match json_field "type" prop with
          | Some (JString ty) => Some ty
          | _ => None
          end
      | None => None
      end
  | None => None
  end.

(** The request has the key. *)
Definition has_key (key : string) (arguments : option (gmap string pyval))
  : Prop :=
  match arguments with
  | None => False
  | Some d => is_Some (d !! key)
  end.

(** ** The paths through the handler *)

(** What the [try] block of lines 196-218 does from the state [s0], by the
    first library call that fails: its text, the state it leaves, the calls
    it made. *)
Inductive TryBlock (d : gmap string pyval) (w : World) (t : pyval)
    (temp : string) (s0 : OS) : string → OS → list Event → Prop :=
| tb_not_a_string v :
    d !! "code_snippet" = Some v →
    (∀ data, v ≠ PyStr data) →
    TryBlock d w t temp s0
      ("Error executing AppleScript: '" +:+ type_name v
         +:+ "' object has no attribute 'encode'")
      s0 []
| tb_write_fails data e :
    d !! "code_snippet" = Some (PyStr data) →
    w_write w = Some e →
    TryBlock d w t temp s0
      (outcome_text t (RunRaises e))
      s0 [EvWrite temp data]
| tb_flush_fails data e :
    d !! "code_snippet" = Some (PyStr data) →
    w_write w = None →
    w_flush w = Some e →
    TryBlock d w t temp s0
      (outcome_text t (RunRaises e))
      (mkOS (disk s0) (pending s0 +:+ data))
      [EvWrite temp data; EvFlush temp]
| tb_invoked data :
    d !! "code_snippet" = Some (PyStr data) →
    w_write w = None →
    w_flush w = None →
    TryBlock d w t temp s0
      (outcome_text t
         (w_run w (osascript temp) t
            (disk (commit temp (mkOS (disk s0) (pending s0 +:+ data))))))
      (ran (osascript temp) t w
         (commit temp (mkOS (disk s0) (pending s0 +:+ data))))
      [EvWrite temp data; EvFlush temp; EvRun (osascript temp) t].

(** What a call does, by the path taken through [handle_call_tool]: the
    name is not the one of the tool; the script is missing; the temporary
    file cannot be created; or the file exists, the [try] block runs, the
    [finally] block unlinks and the [with] statement closes. *)
Inductive CallPath (name : string) (arguments : option (gmap string pyval))
    (w : World) (s : OS) : Res (list Content) * OS * list Event → Prop :=
| path_unknown_tool :
    name ≠ "applescript_execute" →
    CallPath name arguments w s
      (Return [TextContent ("Error: Unknown tool: " +:+ name)], s, [])
| path_script_missing :
    name = "applescript_execute" →
    script_missing arguments →
    CallPath name arguments w s
      (Return [TextContent "Error: Missing code_snippet argument"], s, [])
| path_no_tempfile d v e :
    name = "applescript_execute" →
    arguments = Some d →
    d !! "code_snippet" = Some v →
    w_tempfile w = inl e →
    CallPath name arguments w s
      (Return [TextContent ("Error: " +:+ exn_str e)], s, [EvCreate ".scpt"])
| path_staged d stem text s1 l :
    name = "applescript_execute" →
    arguments = Some d →
    w_tempfile w = inr stem →
    TryBlock d w (requested_timeout arguments) (stem +:+ ".scpt")
      (mkOS (<[stem +:+ ".scpt" := ""]> (disk s)) "") text s1 l →
    CallPath name arguments w s
      (Return [TextContent (text_after_close w s1 text)],
       after_close (stem +:+ ".scpt") w (after_cleanup (stem +:+ ".scpt") w s1),
       EvCreate ".scpt" :: l
         ++ [EvUnlink (stem +:+ ".scpt"); EvClose (stem +:+ ".scpt")]).

(** *** The answer, by what happened

    The two relations below say which text belongs to which course of the
    call; [t] is the requested timeout and the interpreter is asked on the
    command line, with the timeout and on the disk of the real call. *)





(** ** More worlds and requests *)

(** *** Text mode

    [subprocess.run] is called with [text=True] (line 206): what the
    process wrote is decoded and its line ends are translated, as
    [Popen._translate_newlines] does with
    [data.replace("\r\n", "\n").replace("\r", "\n")]. *)












(** A script that removes the file it was staged in: the interpreter
    leaves the disk without it, and [os.unlink] finds nothing. *)
Definition self_removing_world : World :=
  mkWorld (inr "/tmp/tmpab12cd") None None
    (λ _ _ _, Completed 0 "" "")
    (Some (Exn OSError "[Errno 2] No such file or directory"))
    None
    (λ cmd _ dsk, match cmd with
                  | [_; path] => delete path dsk
                  | _ => dsk
                  end).

(** A script that writes a file of its own. *)
Definition writing_world : World :=
  mkWorld (inr "/tmp/tmpab12cd") None None
    (λ _ _ _, Completed 0 "" "") None None
    (λ _ _ dsk, <["/Users/me/out.txt" := "written"]> dsk).

(** A world without room for temporary files. *)
Definition no_tmp_world : World :=
  mkWorld (inl (Exn OSError "[Errno 2] No usable temporary directory found"))
    None None trivial_interpreter None None no_effect.

(** A disk that holds a file of the user. *)
Definition home_os : OS := mkOS {[ "/Users/me/notes.txt" := "mine" ]} "".

(** The tool of a catalogue with a short documentation text. *)
Definition listed_tool : Tool :=
  default (mkTool "" "" (JString ""))
    (head (handle_list_tools "Execute AppleScript code")).

Definition with_extra_key : gmap string pyval :=
  {[ "code_snippet" := PyStr "return 2+2"; "timeout" := PyInt 5;
     "verbose" := PyBool true ]}.

(** * Proofs *)

(** ** Tactics *)

Ltac step :=
  cbn [disk pending String.append returncode stdout stderr app
       exn_class_of exn_str fst snd type_name].

(** Membership of a call in an explicit log. *)
Ltac in_log H :=
  unfold events in H; cbn [snd] in H;
  repeat match type of H with
    | _ ∈ _ :: _ => apply elem_of_cons in H as [H|H]; [try discriminate H|]
    | _ ∈ [] => by apply elem_of_nil in H
    end.

(** Closes a goal of [guarded_returns] once the branch is fixed. *)
Ltac answer_with tac :=
  do 3 eexists; split; [reflexivity|]; split; [tac|];
  split; [intros q Hq; in_log Hq|intros cmd t' Hrun; in_log Hrun; congruence].

(** ** The handler on examples *)

Example ex_format_int :
  py_format (PyInt 60) = "60" ∧ py_format (PyInt 0) = "0"
  ∧ py_format (PyInt (-5)) = "-5".
Proof. vm_compute. auto. Qed.

Example ex_two_plus_two :
  call "applescript_execute" (Some two_plus_two) quiet_world empty_os
  = (Return [TextContent "4"], empty_os,
     [EvCreate ".scpt";
      EvWrite "/tmp/tmpab12cd.scpt" "return 2+2";
      EvFlush "/tmp/tmpab12cd.scpt";
      EvRun ["/usr/bin/osascript"; "/tmp/tmpab12cd.scpt"] (PyInt 5);
      EvUnlink "/tmp/tmpab12cd.scpt";
      EvClose "/tmp/tmpab12cd.scpt"]).
Proof. vm_compute. reflexivity. Qed.

(** When the unlinking fails the file stays, and the answer is the one of
    the execution. *)
Example ex_unlink_fails :
  call "applescript_execute" (Some two_plus_two) stubborn_world empty_os
  = (Return [TextContent "4"],
     mkOS {[ "/tmp/tmpab12cd.scpt" := "return 2+2" ]} "",
     [EvCreate ".scpt";
      EvWrite "/tmp/tmpab12cd.scpt" "return 2+2";
      EvFlush "/tmp/tmpab12cd.scpt";
      EvRun ["/usr/bin/osascript"; "/tmp/tmpab12cd.scpt"] (PyInt 5);
      EvUnlink "/tmp/tmpab12cd.scpt";
      EvClose "/tmp/tmpab12cd.scpt"]).
Proof. vm_compute. reflexivity. Qed.

(** A script that is no string fails at [.encode], inside the [try] block:
    the file is unlinked and the interpreter is not run. *)
Example ex_script_is_a_number :
  call "applescript_execute" (Some script_is_a_number) quiet_world empty_os
  = (Return [TextContent
       "Error executing AppleScript: 'int' object has no attribute 'encode'"],
     empty_os,
     [EvCreate ".scpt"; EvUnlink "/tmp/tmpab12cd.scpt";
      EvClose "/tmp/tmpab12cd.scpt"]).
Proof. vm_compute. reflexivity. Qed.

(** On a full disk the answer of the [try] block is replaced by the error
    of closing the file; the file was unlinked before. *)
Example ex_full_disk :
  call "applescript_execute" (Some two_plus_two) full_disk_world empty_os
  = (Return [TextContent "Error: [Errno 28] No space left on device"],
     empty_os,
     [EvCreate ".scpt";
      EvWrite "/tmp/tmpab12cd.scpt" "return 2+2";
      EvFlush "/tmp/tmpab12cd.scpt";
      EvUnlink "/tmp/tmpab12cd.scpt";
      EvClose "/tmp/tmpab12cd.scpt"]).
Proof. vm_compute. reflexivity. Qed.

(** ** The guard on [arguments] *)

Lemma guard_missing arguments :
  script_missing arguments →
  py_not arguments || not_in "code_snippet" arguments = true.
Proof.
  destruct arguments as [d|]; simpl; [|done].
  intros ->. apply orb_true_r.
Qed.

Lemma guard_present (d : gmap string pyval) v :
  d !! "code_snippet" = Some v →
  py_not (Some d) || not_in "code_snippet" (Some d) = false.
Proof.
  intros Hv. simpl. rewrite Hv.
  rewrite bool_decide_eq_false_2; [done|].
  intros ->. by rewrite lookup_empty in Hv.
Qed.

Lemma name_eqb_other name :
  name ≠ "applescript_execute" → String.eqb name "applescript_execute" = false.
Proof. intros H. by apply String.eqb_neq. Qed.

(** ** The blocks *)

Lemma handle_call_tool_blocks name arguments :
  handle_call_tool name arguments
  = try_except
      (if String.eqb name "applescript_execute" then
         if py_not arguments || not_in "code_snippet" arguments then
           raise (Exn ValueError "Missing code_snippet argument")
         else
           with_NamedTemporaryFile ".scpt" (λ temp,
             try_finally
               (guarded arguments (requested_timeout arguments) temp)
               (cleanup temp))
       else raise (Exn ValueError ("Unknown tool: " +:+ name)))
      (λ e, Some (ret [TextContent ("Error: " +:+ exn_str e)])).
Proof. reflexivity. Qed.

(** The [finally] block never raises, whatever [os.unlink] does. *)
Lemma cleanup_spec temp w s :
  cleanup temp w s = (Return tt, after_cleanup temp w s, [EvUnlink temp]).
Proof.
  unfold cleanup, after_cleanup, try_except, os_unlink, ret.
  destruct (w_unlink w); reflexivity.
Qed.

Lemma diagnostic_error detail : diagnostic ("Error: " +:+ detail).
Proof. exists detail. auto. Qed.

Lemma diagnostic_failed err :
  diagnostic ("AppleScript execution failed: " +:+ err).
Proof. exists err. auto. Qed.

Lemma diagnostic_timed_out shown :
  diagnostic ("AppleScript execution timed out after " +:+ shown +:+ " seconds").
Proof. exists shown. auto. Qed.

Lemma diagnostic_executing msg :
  diagnostic ("Error executing AppleScript: " +:+ msg).
Proof. exists msg. auto 6. Qed.

Create HintDb bridge.
#[local] Hint Resolve diagnostic_error diagnostic_failed diagnostic_timed_out
  diagnostic_executing : bridge.

Lemma outcome_text_cases w cmd timeout dsk :
  captured_stdout w (outcome_text timeout (w_run w cmd timeout dsk))
  ∨ diagnostic (outcome_text timeout (w_run w cmd timeout dsk)).
Proof.
  unfold outcome_text.
  destruct (w_run w cmd timeout dsk) as [rc out err|e] eqn:Hrun.
  - destruct (rc =? 0)%Z eqn:Hrc; cbn [negb].
    + apply Z.eqb_eq in Hrc as ->. left. by exists cmd, timeout, dsk, err.
    + right. auto with bridge.
  - right. destruct (decide _); auto with bridge.
Qed.

(** The [try] block always answers with one text block; it neither unlinks
    nor closes the file, and it runs the interpreter with the timeout it
    was given. *)
Lemma guarded_returns (d : gmap string pyval) v t temp w s0 :
  d !! "code_snippet" = Some v →
  ∃ text s1 l,
    guarded (Some d) t temp w s0 = (Return [TextContent text], s1, l)
    ∧ (captured_stdout w text ∨ diagnostic text)
    ∧ (∀ q, EvUnlink q ∉ l)
    ∧ (∀ cmd t', EvRun cmd t' ∈ l → t' = t).
Proof.
  intros Hv.
  unfold guarded, try_except, getitem, encode_utf8, temp_write, temp_flush,
    subprocess_run, mbind, M_bind, bind, ret, raise.
  rewrite Hv.
  destruct v as [|b|z|data|ty shown]; step.
  1-3, 5: answer_with ltac:(right; apply diagnostic_executing).
  destruct (w_write w) as [e|]; step.
  { destruct (decide _); answer_with ltac:(right; auto with bridge). }
  destruct (w_flush w) as [e|]; step.
  { destruct (decide _); answer_with ltac:(right; auto with bridge). }
  pose proof (outcome_text_cases w ["/usr/bin/osascript"; temp] t
                (disk (commit temp (mkOS (disk s0) (pending s0 +:+ data)))))
    as Hcases.
  unfold outcome_text in Hcases.
  destruct (w_run w _ _ _) as [rc out err|e]; step.
  - destruct (negb (rc =? 0)%Z); answer_with ltac:(exact Hcases).
  - destruct (decide _); answer_with ltac:(exact Hcases).
Qed.

(** The [try] block does not consult [os.unlink]. *)
Lemma guarded_ignores_unlink arguments t temp u w s0 :
  guarded arguments t temp (set_unlink u w) s0 = guarded arguments t temp w s0.
Proof.
  unfold guarded, try_except, getitem, encode_utf8, temp_write, temp_flush,
    subprocess_run, mbind, M_bind, bind, ret, raise, set_unlink.
  cbn [w_write w_flush w_run].
  destruct arguments as [d|]; [|reflexivity].
  destruct (d !! "code_snippet") as [[| | |data|]|]; try reflexivity.
  destruct (w_write w) as [e|]; [by destruct (decide _)|].
  destruct (w_flush w) as [e|]; [by destruct (decide _)|].
  destruct (w_run w _ _ _) as [rc out err|e]; step;
    [by destruct (negb _)|by destruct (decide _)].
Qed.

(** Once unlinked, the path stays free: closing the file does not bring it
    back. *)
Lemma unlinked_stays_unlinked temp w s :
  w_unlink w = None →
  disk (after_close temp w (after_cleanup temp w s)) !! temp = None.
Proof.
  intros Hu. unfold after_close, after_cleanup, commit. rewrite Hu.
  cbn [disk pending].
  destruct (decide _); cbn [disk]; [apply lookup_delete_eq|].
  destruct (w_close w); cbn [disk]; rewrite ?lookup_delete_eq;
    cbn [disk]; by rewrite ?lookup_delete_eq.
Qed.

(** ** The whole call *)

Lemma call_unknown_tool name arguments w s :
  name ≠ "applescript_execute" →
  call name arguments w s
  = (Return [TextContent ("Error: Unknown tool: " +:+ name)], s, []).
Proof.
  intros Hname. unfold call, handle_call_tool, try_except, raise, ret.
  by rewrite (name_eqb_other _ Hname).
Qed.

Lemma call_script_missing arguments w s :
  script_missing arguments →
  call "applescript_execute" arguments w s
  = (Return [TextContent "Error: Missing code_snippet argument"], s, []).
Proof.
  intros Hmiss. unfold call. rewrite handle_call_tool_blocks.
  unfold try_except, raise, ret.
  by rewrite String.eqb_refl, (guard_missing _ Hmiss).
Qed.

Lemma call_tempfile_fails (d : gmap string pyval) v w s e :
  d !! "code_snippet" = Some v →
  w_tempfile w = inl e →
  call "applescript_execute" (Some d) w s
  = (Return [TextContent ("Error: " +:+ exn_str e)], s, [EvCreate ".scpt"]).
Proof.
  intros Hv He. unfold call. rewrite handle_call_tool_blocks.
  unfold try_except at 1. rewrite String.eqb_refl, (guard_present _ _ Hv).
  unfold with_NamedTemporaryFile, NamedTemporaryFile, ret.
  by rewrite He.
Qed.

(** Once the temporary file exists: what the [try] block answered, then
    the [finally] block, then the closing of the file. *)
Lemma call_staged (d : gmap string pyval) v w s stem text s1 l :
  d !! "code_snippet" = Some v →
  w_tempfile w = inr stem →
  let p := stem +:+ ".scpt" in
  guarded (Some d) (requested_timeout (Some d)) p w
    (mkOS (<[p := ""]> (disk s)) "")
  = (Return [TextContent text], s1, l) →
  call "applescript_execute" (Some d) w s
  = (Return [TextContent (text_after_close w s1 text)],
     after_close p w (after_cleanup p w s1),
     EvCreate ".scpt" :: l ++ [EvUnlink p; EvClose p]).
Proof.
  intros Hv Hstem p Hg. unfold call.
  rewrite handle_call_tool_blocks.
  unfold try_except at 1. rewrite String.eqb_refl, (guard_present _ _ Hv).
  unfold with_NamedTemporaryFile, NamedTemporaryFile, try_finally.
  rewrite Hstem. fold p. rewrite Hg, cleanup_spec.
  assert (Hpend : pending (after_cleanup p w s1) = pending s1).
  { unfold after_cleanup. by destruct (w_unlink w). }
  unfold temp_close, after_close, text_after_close, ret. rewrite Hpend.
  destruct (decide (pending s1 = "")).
  - cbn [app]. by rewrite <- app_assoc.
  - destruct (w_close w); cbn [app exn_str]; by rewrite <- !app_assoc, ?app_nil_r.
Qed.

(** Once the script is staged: the six library calls, and the answer to
    what the interpreter did. *)
Lemma call_invoked (d : gmap string pyval) w s snippet stem :
  staged_ok d w snippet stem →
  let p := stem +:+ ".scpt" in
  let t := requested_timeout (Some d) in
  call "applescript_execute" (Some d) w s
  = (Return [TextContent
       (outcome_text t (w_run w (osascript p) t (staged_disk stem snippet s)))],
     mkOS (match w_unlink w with
           | None => delete p (disk_left w stem snippet t s)
           | Some _ => disk_left w stem snippet t s
           end) "",
     [EvCreate ".scpt"; EvWrite p snippet; EvFlush p; EvRun (osascript p) t;
      EvUnlink p; EvClose p]).
Proof.
  intros (Hv & Hstem & Hwr & Hfl). cbv zeta.
  unfold call, handle_call_tool, with_NamedTemporaryFile, NamedTemporaryFile,
    try_finally, try_except, getitem, encode_utf8, temp_write, temp_flush,
    subprocess_run, os_unlink, temp_close, commit,
    mbind, M_bind, bind, ret, raise, requested_timeout, osascript, staged_disk,
    disk_left, ran.
  rewrite String.eqb_refl, (guard_present _ _ Hv).
  rewrite Hstem, Hv, Hwr, Hfl. cbn [disk pending String.append].
  rewrite lookup_insert_eq, insert_insert_eq. cbn [disk pending String.append].
  unfold outcome_text, osascript, staged_disk.
  destruct (w_run w _ _ _) as [rc out err|e]; cbn [returncode stdout stderr].
  - destruct (negb (rc =? 0)%Z), (w_unlink w);
      cbn [disk pending app]; (destruct (decide _); [|done]); reflexivity.
  - destruct (decide (exn_class_of e = TimeoutExpired)), (w_unlink w);
      cbn [disk pending app]; (destruct (decide _); [|done]); reflexivity.
Qed.

(** Every invocation of the interpreter carries the requested timeout, the
    default 60 when there is none. *)
Lemma run_events_carry_timeout name arguments w s cmd t :
  EvRun cmd t ∈ events (call name arguments w s) →
  t = requested_timeout arguments.
Proof.
  destruct (decide (name = "applescript_execute")) as [->|Hname];
    [|rewrite call_unknown_tool by done; intros H; in_log H].
  destruct arguments as [d|];
    [|rewrite call_script_missing by done; intros H; in_log H].
  destruct (d !! "code_snippet") as [v|] eqn:Hv;
    [|rewrite call_script_missing by done; intros H; in_log H].
  destruct (w_tempfile w) as [e|stem] eqn:Hstem;
    [rewrite (call_tempfile_fails _ _ _ _ _ Hv Hstem); intros H; in_log H|].
  destruct (guarded_returns d v (requested_timeout (Some d))
              (stem +:+ ".scpt") w
              (mkOS (<[stem +:+ ".scpt" := ""]> (disk s)) "") Hv)
    as (text & s1 & l & Hg & _ & _ & Hrun).
  rewrite (call_staged _ _ _ _ _ _ _ _ Hv Hstem Hg). unfold events. cbn [snd].
  intros H. apply elem_of_cons in H as [H|H]; [discriminate|].
  apply elem_of_app in H as [H|H]; [by eapply Hrun|in_log H].
Qed.







Lemma no_timeout_given_staged :
  staged_ok no_timeout_given quiet_world "return 2+2" "/tmp/tmpab12cd".
Proof. repeat split; vm_compute; reflexivity. Defined.


(** * The properties of the bridge *)

(** C1. When the request carries a [code_snippet] and the temporary file
    was created, [os.unlink] is called on it on every exit of the execution
    (whatever writing, flushing and the interpreter did: exit code 0, another
    exit code, timeout, any exception), once, after every other call but the
    closing of the file; when the unlinking succeeds the path is free
    afterwards; and the answer to the caller is the same whatever
    [os.unlink] does. *)
Theorem staged_script_unlinked_on_every_exit
    (d : gmap string pyval) v w s stem :
  d !! "code_snippet" = Some v →
  w_tempfile w = inr stem →
  let p := stem +:+ ".scpt" in
  let x := call "applescript_execute" (Some d) w s in
  (∃ before,
      events x = EvCreate ".scpt" :: before ++ [EvUnlink p; EvClose p]
      ∧ ∀ q, EvUnlink q ∉ before)
  ∧ (w_unlink w = None → disk (final x) !! p = None)
  ∧ (∀ u, response (call "applescript_execute" (Some d) (set_unlink u w) s)
          = response x).
Proof.
  intros Hv Hstem p x.
  destruct (guarded_returns d v (requested_timeout (Some d)) p w
              (mkOS (<[p := ""]> (disk s)) "") Hv)
    as (text & s1 & l & Hg & _ & Hno & _).
  subst x. rewrite (call_staged _ _ _ _ _ _ _ _ Hv Hstem Hg).
  split; [|split].
  - exists l. split; [reflexivity|exact Hno].
  - intros Hu. by apply unlinked_stays_unlinked.
  - intros u.
    assert (Hstem' : w_tempfile (set_unlink u w) = inr stem) by exact Hstem.
    assert (Hg' : guarded (Some d) (requested_timeout (Some d)) p
                    (set_unlink u w) (mkOS (<[p := ""]> (disk s)) "")
                  = (Return [TextContent text], s1, l))
      by (by rewrite guarded_ignores_unlink).
    rewrite (call_staged _ _ _ _ _ _ _ _ Hv Hstem' Hg'). reflexivity.
Qed.

Lemma staged_script_unlinked_witness :
  let p := "/tmp/tmpab12cd" +:+ ".scpt" in
  let x := call "applescript_execute" (Some two_plus_two) quiet_world
             empty_os in
  (∃ before,
      events x = EvCreate ".scpt" :: before ++ [EvUnlink p; EvClose p]
      ∧ ∀ q, EvUnlink q ∉ before)
  ∧ (w_unlink quiet_world = None → disk (final x) !! p = None)
  ∧ (∀ u, response (call "applescript_execute" (Some two_plus_two)
                      (set_unlink u quiet_world) empty_os)
          = response x).
Proof.
  apply (staged_script_unlinked_on_every_exit two_plus_two
           (PyStr "return 2+2") quiet_world empty_os "/tmp/tmpab12cd");
    vm_compute; reflexivity.
Defined.

(** C2, as the code has it.  A request without [code_snippet] (no arguments,
    an empty dict, or a dict without that key) is answered with the
    missing-argument error; nothing is logged, so no temporary file is
    created and no interpreter is run, and the disk is untouched.  An empty
    string as script is not turned down. *)
Theorem missing_script_is_rejected arguments w s :
  script_missing arguments →
  let x := call "applescript_execute" arguments w s in
  response x = Return [TextContent "Error: Missing code_snippet argument"]
  ∧ invalid_request (response x)
  ∧ nothing_staged_nothing_run (events x)
  ∧ events x = []
  ∧ final x = s.
Proof.
  intros Hmiss x. subst x. rewrite (call_script_missing _ _ _ Hmiss).
  split; [reflexivity|]. split; [by exists "Missing code_snippet argument"|].
  split; [|by split].
  split; intros; apply not_elem_of_nil.
Qed.

Lemma missing_script_witness :
  let x := call "applescript_execute" (Some {[ "timeout" := PyInt 5 ]})
             quiet_world empty_os in
  response x = Return [TextContent "Error: Missing code_snippet argument"]
  ∧ invalid_request (response x)
  ∧ nothing_staged_nothing_run (events x)
  ∧ events x = []
  ∧ final x = empty_os.
Proof.
  apply (missing_script_is_rejected (Some {[ "timeout" := PyInt 5 ]})
           quiet_world empty_os).
  vm_compute. reflexivity.
Defined.

(** C2, as stated, fails on the empty script: the guard of line 187 tests
    the presence of the key only, so the empty script is written to a
    temporary file and handed to the interpreter. *)
Lemma empty_script_is_staged_and_run :
  let x := call "applescript_execute" (Some empty_script) quiet_world
             empty_os in
  script_missing_or_empty (Some empty_script)
  ∧ x = (Return [TextContent ""], empty_os,
         [EvCreate ".scpt";
          EvWrite "/tmp/tmpab12cd.scpt" "";
          EvFlush "/tmp/tmpab12cd.scpt";
          EvRun ["/usr/bin/osascript"; "/tmp/tmpab12cd.scpt"] (PyInt 60);
          EvUnlink "/tmp/tmpab12cd.scpt";
          EvClose "/tmp/tmpab12cd.scpt"])
  ∧ ¬ invalid_request (response x)
  ∧ ¬ nothing_staged_nothing_run (events x).
Proof.
  cbv zeta.
  assert (Hx : call "applescript_execute" (Some empty_script) quiet_world
                 empty_os
               = (Return [TextContent ""], empty_os,
                  [EvCreate ".scpt";
                   EvWrite "/tmp/tmpab12cd.scpt" "";
                   EvFlush "/tmp/tmpab12cd.scpt";
                   EvRun ["/usr/bin/osascript"; "/tmp/tmpab12cd.scpt"] (PyInt 60);
                   EvUnlink "/tmp/tmpab12cd.scpt";
                   EvClose "/tmp/tmpab12cd.scpt"]))
    by (vm_compute; reflexivity).
  rewrite Hx. repeat split.
  - right. exists empty_script. split; [reflexivity|]. vm_compute. reflexivity.
  - intros [detail Hd]. discriminate Hd.
  - intros [Hcreate _]. apply (Hcreate ".scpt"). unfold events. cbn [snd].
    apply elem_of_cons. by left.
Qed.

(** The handler got as far as running the interpreter. *)
Section Invoked.
Variables (d : gmap string pyval) (w : World) (s : OS).
Variables (snippet stem : string).
Hypothesis Hstaged : staged_ok d w snippet stem.




End Invoked.





(** C7. Any other operation name is answered, as a normal result, with the
    unknown-tool error; nothing is logged, so no interpreter is run and no
    file is created, and the disk is untouched. *)
Theorem unknown_tool_is_rejected name arguments w s :
  name ≠ "applescript_execute" →
  let x := call name arguments w s in
  response x = Return [TextContent ("Error: Unknown tool: " +:+ name)]
  ∧ invalid_request (response x)
  ∧ events x = []
  ∧ final x = s.
Proof.
  intros Hname x. subst x. rewrite (call_unknown_tool _ _ _ _ Hname).
  repeat split. by exists ("Unknown tool: " +:+ name).
Qed.

Lemma unknown_tool_witness :
  let x := call "shell_execute" (Some two_plus_two) quiet_world empty_os in
  response x = Return [TextContent "Error: Unknown tool: shell_execute"]
  ∧ invalid_request (response x)
  ∧ events x = []
  ∧ final x = empty_os.
Proof.
  apply (unknown_tool_is_rejected "shell_execute" (Some two_plus_two)
           quiet_world empty_os).
  discriminate.
Defined.

(** C8. When the request names no timeout, every invocation of the
    interpreter by the handler carries the timeout 60; and the interpreter
    is invoked, with that timeout, as soon as the script is staged. *)
Theorem omitted_timeout_is_sixty name arguments w s :
  timeout_omitted arguments →
  let x := call name arguments w s in
  (∀ cmd t, EvRun cmd t ∈ events x → t = PyInt 60)
  ∧ (∀ d snippet stem,
        name = "applescript_execute" → arguments = Some d →
        staged_ok d w snippet stem →
        EvRun (osascript (stem +:+ ".scpt")) (PyInt 60) ∈ events x).
Proof.
  intros Hom x.
  assert (Ht : requested_timeout arguments = PyInt 60).
  { unfold requested_timeout. destruct arguments as [d|]; [|done].
    simpl in *. by rewrite Hom. }
  split.
  - intros cmd t Hrun. apply run_events_carry_timeout in Hrun. congruence.
  - intros d snippet stem -> -> Hstaged. subst x.
    rewrite (call_invoked _ _ _ _ _ Hstaged), Ht. unfold events. cbn [snd].
    rewrite !elem_of_cons. auto.
Qed.

Lemma omitted_timeout_witness :
  EvRun ["/usr/bin/osascript"; "/tmp/tmpab12cd.scpt"] (PyInt 60)
  ∈ events (call "applescript_execute" (Some no_timeout_given) quiet_world
              empty_os).
Proof.
  refine (proj2 (omitted_timeout_is_sixty "applescript_execute"
                   (Some no_timeout_given) quiet_world empty_os _)
            no_timeout_given "return 2+2" "/tmp/tmpab12cd"
            eq_refl eq_refl no_timeout_given_staged).
  vm_compute. reflexivity.
Defined.



(** * Further properties of the handler and of the catalogue *)

(** ** The paths through the [try] block *)

Lemma guarded_path (d : gmap string pyval) v t temp w s0 :
  d !! "code_snippet" = Some v →
  ∃ text s1 l,
    guarded (Some d) t temp w s0 = (Return [TextContent text], s1, l)
    ∧ TryBlock d w t temp s0 text s1 l.
Proof.
  intros Hv.
  unfold guarded, try_except, getitem, encode_utf8, temp_write, temp_flush,
    subprocess_run, mbind, M_bind, bind, ret, raise.
  rewrite Hv.
  destruct v as [|b|z|data|ty shown]; step.
  1-3, 5: do 3 eexists; split; [reflexivity|];
    by eapply (tb_not_a_string _ _ _ _ _ _ Hv).
  destruct (w_write w) as [e|] eqn:Hwr; step.
  { pose proof (tb_write_fails d w t temp s0 data e Hv Hwr) as Hp.
    unfold outcome_text in Hp.
    destruct (decide _); do 3 eexists; (split; [reflexivity|exact Hp]). }
  destruct (w_flush w) as [e|] eqn:Hfl; step.
  { pose proof (tb_flush_fails d w t temp s0 data e Hv Hwr Hfl) as Hp.
    unfold outcome_text in Hp.
    destruct (decide _); do 3 eexists; (split; [reflexivity|exact Hp]). }
  pose proof (tb_invoked d w t temp s0 data Hv Hwr Hfl) as Hp.
  unfold outcome_text, osascript in Hp.
  destruct (w_run w _ _ _) as [rc out err|e]; step.
  - destruct (negb (rc =? 0)%Z); do 3 eexists; (split; [reflexivity|exact Hp]).
  - destruct (decide _); do 3 eexists; (split; [reflexivity|exact Hp]).
Qed.

(** ** The paths through the handler *)

Lemma call_path name arguments w s :
  CallPath name arguments w s (call name arguments w s).
Proof.
  destruct (decide (name = "applescript_execute")) as [->|Hname].
  2: { rewrite call_unknown_tool by done. by constructor. }
  destruct arguments as [d|].
  2: { rewrite call_script_missing by done. by constructor. }
  destruct (d !! "code_snippet") as [v|] eqn:Hv.
  2: { rewrite call_script_missing by done. by constructor. }
  destruct (w_tempfile w) as [e|stem] eqn:Hstem.
  { rewrite (call_tempfile_fails _ _ _ _ _ Hv Hstem).
    by eapply path_no_tempfile. }
  destruct (guarded_path d v (requested_timeout (Some d))
              (stem +:+ ".scpt") w
              (mkOS (<[stem +:+ ".scpt" := ""]> (disk s)) "") Hv)
    as (text & s1 & l & Hg & Hpath).
  rewrite (call_staged _ _ _ _ _ _ _ _ Hv Hstem Hg).
  by eapply path_staged.
Qed.

(** The [finally] block and the closing of the file touch one path. *)
Lemma after_close_cleanup_frame temp w s q :
  q ≠ temp →
  disk (after_close temp w (after_cleanup temp w s)) !! q = disk s !! q.
Proof.
  intros Hq. unfold after_close, after_cleanup, commit.
  destruct (w_unlink w), (decide _); cbn [disk pending];
    rewrite ?lookup_delete_ne by done; try done.
  all: destruct (w_close w); cbn [disk pending];
    rewrite ?lookup_delete_ne by done; try done.
  all: repeat case_match; cbn [disk];
    rewrite ?lookup_insert_ne, ?lookup_delete_ne by done; done.
Qed.

(** As long as it does not run the interpreter the [try] block leaves the
    disk as it is. *)
Lemma try_block_frame d w t temp s0 text s1 l :
  TryBlock d w t temp s0 text s1 l →
  (∀ cmd t', EvRun cmd t' ∉ l) →
  disk s1 = disk s0.
Proof.
  intros [] Hrun; try done.
  destruct (Hrun (osascript temp) t). rewrite !elem_of_cons. auto.
Qed.

(** ** The answer, by what happened *)





(** ** The order of the library calls *)


(** X2. The interpreter is run exactly when the tool is the right one, the
    script is a string and the temporary file was created, written and
    flushed; the command line is then the fixed binary followed by the
    path of the temporary file, and nothing else: no part of the request
    reaches the command line. *)
Theorem interpreter_runs_iff_staged name arguments w s cmd t :
  EvRun cmd t ∈ events (call name arguments w s)
  ↔ name = "applescript_execute"
    ∧ ∃ d snippet stem,
        arguments = Some d ∧ staged_ok d w snippet stem
        ∧ cmd = osascript (stem +:+ ".scpt")
        ∧ t = requested_timeout arguments.
Proof.
  split.
  - destruct (call_path name arguments w s)
      as [?|? ?|d v e ? ? ? ?|d stem text s1 l ? ? Hstem Htry];
      intros Hrun; [in_log Hrun..|].
    unfold events in Hrun. cbn [snd] in Hrun.
    apply elem_of_cons in Hrun as [Hrun|Hrun]; [discriminate|].
    apply elem_of_app in Hrun as [Hrun|Hrun]; [|in_log Hrun].
    destruct Htry as [v ? ?|data e ? ?|data e ? ? ?|data Hv Hwr Hfl];
      in_log Hrun.
    injection Hrun as -> ->. split; [done|].
    exists d, data, stem. by repeat split.
  - intros (-> & d & snippet & stem & -> & Hstaged & -> & ->).
    rewrite (call_invoked _ _ _ _ _ Hstaged). unfold events. cbn [snd].
    rewrite !elem_of_cons. auto.
Qed.




(** ** Failures before the interpreter *)



(** X5. When the temporary file cannot be created the caller gets the
    message of that exception behind [Error: ]; the creation is the only
    library call: there is nothing to unlink or close, the interpreter is
    not run and the disk is as before. *)
Theorem tempfile_failure_is_reported (d : gmap string pyval) v w s e :
  d !! "code_snippet" = Some v →
  w_tempfile w = inl e →
  let x := call "applescript_execute" (Some d) w s in
  response x = Return [TextContent ("Error: " +:+ exn_str e)]
  ∧ events x = [EvCreate ".scpt"]
  ∧ final x = s.
Proof.
  intros Hv He x. subst x. by rewrite (call_tempfile_fails _ _ _ _ _ Hv He).
Qed.

Lemma tempfile_failure_witness :
  let x := call "applescript_execute" (Some two_plus_two) no_tmp_world
             home_os in
  response x
  = Return [TextContent "Error: [Errno 2] No usable temporary directory found"]
  ∧ events x = [EvCreate ".scpt"]
  ∧ final x = home_os.
Proof.
  apply (tempfile_failure_is_reported two_plus_two (PyStr "return 2+2")
           no_tmp_world home_os
           (Exn OSError "[Errno 2] No usable temporary directory found")).
  - vm_compute. reflexivity.
  - reflexivity.
Defined.

(** X6. When flushing the script fails the interpreter is not run and the
    file is unlinked.  The script is still in the buffer, so closing the
    file flushes again: if that succeeds the caller gets the flush error
    behind [Error executing AppleScript: ]; if it fails too, the [with]
    statement raises after the [return] of the handler of line 217, and the
    caller gets the closing error behind [Error: ] instead. *)
Theorem flush_failure_is_reported (d : gmap string pyval) data w s stem e :
  d !! "code_snippet" = Some (PyStr data) →
  data ≠ "" →
  w_tempfile w = inr stem →
  w_write w = None →
  w_flush w = Some e →
  exn_class_of e ≠ TimeoutExpired →
  let p := stem +:+ ".scpt" in
  let x := call "applescript_execute" (Some d) w s in
  response x
  = Return [TextContent
              match w_close w with
              | Some e' => "Error: " +:+ exn_str e'
              | None => "Error executing AppleScript: " +:+ exn_str e
              end]
  ∧ events x = [EvCreate ".scpt"; EvWrite p data; EvFlush p;
                EvUnlink p; EvClose p].
Proof.
  intros Hv Hdata Hstem Hwr Hfl Hclass p x.
  destruct (guarded_path d (PyStr data) (requested_timeout (Some d)) p w
              (mkOS (<[p := ""]> (disk s)) "") Hv)
    as (text & s1 & l & Hg & Htry).
  subst x. rewrite (call_staged _ _ _ _ _ _ _ _ Hv Hstem Hg).
  destruct Htry as [v' Hv' Hns|data' e' Hv' Hwr'|data' e' Hv' _ Hfl'
                   |data' Hv' _ Hfl'];
    rewrite Hv in Hv'; injection Hv' as Heq;
    try subst data'; try subst v'.
  - by destruct (Hns data).
  - congruence.
  - rewrite Hfl in Hfl'. injection Hfl' as <-.
    unfold response, events, text_after_close, outcome_text.
    cbn [fst snd pending app String.append].
    rewrite decide_False by done. rewrite decide_False by done.
    by destruct (w_close w).
  - congruence.
Qed.

Lemma flush_failure_witness :
  let x := call "applescript_execute" (Some two_plus_two) full_disk_world
             empty_os in
  response x
  = Return [TextContent "Error: [Errno 28] No space left on device"]
  ∧ events x = [EvCreate ".scpt"; EvWrite "/tmp/tmpab12cd.scpt" "return 2+2";
                EvFlush "/tmp/tmpab12cd.scpt"; EvUnlink "/tmp/tmpab12cd.scpt";
                EvClose "/tmp/tmpab12cd.scpt"].
Proof.
  apply (flush_failure_is_reported two_plus_two "return 2+2" full_disk_world
           empty_os "/tmp/tmpab12cd"
           (Exn OSError "[Errno 28] No space left on device")).
  - vm_compute. reflexivity.
  - discriminate.
  - reflexivity.
  - reflexivity.
  - reflexivity.
  - discriminate.
Defined.

(** ** The footprint on the disk *)

(** When the interpreter is not run, a call changes no path but the one of
    its temporary file. *)
Lemma call_frame name arguments w s q :
  (∀ cmd t, EvRun cmd t ∉ events (call name arguments w s)) →
  (∀ stem, w_tempfile w = inr stem → q ≠ stem +:+ ".scpt") →
  disk (final (call name arguments w s)) !! q = disk s !! q.
Proof.
  intros Hrun Hq.
  destruct (call_path name arguments w s)
    as [?|? ?|d v e ? ? ? ?|d stem text s1 l ? ? Hstem Htry]; [done..|].
  unfold final, events in *. cbn [fst snd] in *.
  rewrite after_close_cleanup_frame by auto.
  rewrite (try_block_frame _ _ _ _ _ _ _ _ Htry).
  - cbn [disk]. by rewrite lookup_insert_ne by (symmetry; auto).
  - intros cmd t Hin. apply (Hrun cmd t).
    apply elem_of_cons. right. apply elem_of_app. by left.
Qed.

Lemma call_unlinked name arguments w s stem :
  w_unlink w = None →
  w_tempfile w = inr stem →
  disk s !! (stem +:+ ".scpt") = None →
  disk (final (call name arguments w s)) !! (stem +:+ ".scpt") = None.
Proof.
  intros Hu Hstem Hfresh.
  destruct (call_path name arguments w s)
    as [?|? ?|d v e ? ? ? ?|d stem' text s1 l ? ? Hstem' Htry]; [done..|].
  rewrite Hstem in Hstem'. injection Hstem' as <-.
  unfold final. cbn [fst snd]. by apply unlinked_stays_unlinked.
Qed.

(** X7. The handler itself touches one file, its temporary file.  When the
    interpreter is not run (the request is turned down, or staging fails),
    every other path of the disk holds afterwards what it held before; and
    when moreover [os.unlink] succeeds and the name of the temporary file
    was free, the disk is exactly as before. *)
Theorem disk_unchanged_when_not_run name arguments w s :
  (∀ cmd t, EvRun cmd t ∉ events (call name arguments w s)) →
  (∀ q, (∀ stem, w_tempfile w = inr stem → q ≠ stem +:+ ".scpt") →
        disk (final (call name arguments w s)) !! q = disk s !! q)
  ∧ (w_unlink w = None →
     (∀ stem, w_tempfile w = inr stem → disk s !! (stem +:+ ".scpt") = None) →
     disk (final (call name arguments w s)) = disk s).
Proof.
  intros Hrun. split; [intros q; by apply call_frame|].
  intros Hu Hfresh. apply map_eq. intros q.
  destruct (w_tempfile w) as [e|stem] eqn:Hstem.
  - apply call_frame; [done|]. by rewrite Hstem.
  - destruct (decide (q = stem +:+ ".scpt")) as [->|Hq].
    + rewrite (call_unlinked _ _ _ _ _ Hu Hstem) by auto.
      symmetry. auto.
    + apply call_frame; [done|]. rewrite Hstem. by intros ? [= <-].
Qed.

Lemma disk_unchanged_witness :
  (∀ q, (∀ stem, w_tempfile quiet_world = inr stem → q ≠ stem +:+ ".scpt") →
        disk (final (call "applescript_execute" (Some script_is_a_number)
                       quiet_world home_os)) !! q
        = disk home_os !! q)
  ∧ (w_unlink quiet_world = None →
     (∀ stem, w_tempfile quiet_world = inr stem →
              disk home_os !! (stem +:+ ".scpt") = None) →
     disk (final (call "applescript_execute" (Some script_is_a_number)
                    quiet_world home_os))
     = disk home_os).
Proof.
  apply (disk_unchanged_when_not_run "applescript_execute"
           (Some script_is_a_number) quiet_world home_os).
  intros cmd t Hin.
  replace (events (call "applescript_execute" (Some script_is_a_number)
                     quiet_world home_os))
    with [EvCreate ".scpt"; EvUnlink "/tmp/tmpab12cd.scpt";
          EvClose "/tmp/tmpab12cd.scpt"] in Hin
    by (vm_compute; reflexivity).
  in_log Hin.
Defined.

(** X8. After a run, when [os.unlink] succeeds, the disk is what the
    interpreter left, without the staged file: the handler adds nothing and
    removes nothing else. *)
Theorem disk_after_run_and_unlink (d : gmap string pyval) w s snippet stem :
  staged_ok d w snippet stem →
  w_unlink w = None →
  disk (final (call "applescript_execute" (Some d) w s))
  = delete (stem +:+ ".scpt")
      (disk_left w stem snippet (requested_timeout (Some d)) s).
Proof.
  intros Hstaged Hu. by rewrite (call_invoked _ _ _ _ _ Hstaged), Hu.
Qed.

Lemma two_plus_two_staged_writing :
  staged_ok two_plus_two writing_world "return 2+2" "/tmp/tmpab12cd".
Proof. repeat split; vm_compute; reflexivity. Defined.

Lemma disk_after_run_witness :
  disk (final (call "applescript_execute" (Some two_plus_two) writing_world
                 home_os))
  = delete ("/tmp/tmpab12cd" +:+ ".scpt")
      (disk_left writing_world "/tmp/tmpab12cd" "return 2+2"
         (requested_timeout (Some two_plus_two)) home_os).
Proof.
  apply (disk_after_run_and_unlink two_plus_two writing_world home_os
           "return 2+2" "/tmp/tmpab12cd" two_plus_two_staged_writing).
  reflexivity.
Defined.

(** What the script wrote is there after the call, the file of the user
    too, and the staged file is gone. *)
Example ex_script_writes_a_file :
  disk (final (call "applescript_execute" (Some two_plus_two) writing_world
                 home_os))
  = {[ "/Users/me/notes.txt" := "mine"; "/Users/me/out.txt" := "written" ]}.
Proof. vm_compute. reflexivity. Qed.

(** X9. After a run, when [os.unlink] raises, the error is swallowed and
    the disk is exactly what the interpreter left: the staged file is still
    there, with the script in it, if and only if the interpreter left it
    there. *)
Theorem disk_after_run_when_unlink_fails
    (d : gmap string pyval) w s snippet stem e :
  staged_ok d w snippet stem →
  w_unlink w = Some e →
  disk (final (call "applescript_execute" (Some d) w s))
  = disk_left w stem snippet (requested_timeout (Some d)) s.
Proof.
  intros Hstaged Hu. by rewrite (call_invoked _ _ _ _ _ Hstaged), Hu.
Qed.

Lemma two_plus_two_staged_stubborn :
  staged_ok two_plus_two stubborn_world "return 2+2" "/tmp/tmpab12cd".
Proof. repeat split; vm_compute; reflexivity. Defined.

Lemma unlink_fails_witness :
  disk (final (call "applescript_execute" (Some two_plus_two) stubborn_world
                 home_os))
  = disk_left stubborn_world "/tmp/tmpab12cd" "return 2+2"
      (requested_timeout (Some two_plus_two)) home_os.
Proof.
  apply (disk_after_run_when_unlink_fails two_plus_two stubborn_world home_os
           "return 2+2" "/tmp/tmpab12cd"
           (Exn OSError "[Errno 13] Permission denied")
           two_plus_two_staged_stubborn).
  reflexivity.
Defined.

(** The staged file stays when the unlinking is refused; it is gone when
    the script removed it itself and the unlinking finds nothing. *)
Example ex_staged_file_stays_or_not :
  disk (final (call "applescript_execute" (Some two_plus_two) stubborn_world
                 home_os)) !! "/tmp/tmpab12cd.scpt"
  = Some "return 2+2"
  ∧ disk (final (call "applescript_execute" (Some two_plus_two)
                   self_removing_world home_os)) !! "/tmp/tmpab12cd.scpt"
    = None.
Proof. vm_compute. auto. Qed.

(** ** The catalogue and the handler *)

(** Two requests that agree on the script and on the timeout are handled
    alike. *)
Lemma call_agree name (d d' : gmap string pyval) w s :
  d !! "code_snippet" = d' !! "code_snippet" →
  d !! "timeout" = d' !! "timeout" →
  call name (Some d) w s = call name (Some d') w s.
Proof.
  intros Hcs Hto.
  destruct (decide (name = "applescript_execute")) as [->|Hname];
    [|by rewrite !call_unknown_tool].
  destruct (d !! "code_snippet") as [v|] eqn:Hv.
  2: { rewrite !call_script_missing; done. }
  assert (Ht : requested_timeout (Some d) = requested_timeout (Some d')).
  { unfold requested_timeout, dict_get. by rewrite Hto. }
  assert (Hg : ∀ temp s0,
            guarded (Some d) (requested_timeout (Some d)) temp w s0
            = guarded (Some d') (requested_timeout (Some d')) temp w s0).
  { intros temp s0. rewrite Ht. unfold guarded, getitem, try_except, mbind,
      M_bind, bind. by rewrite Hv, <- Hcs. }
  unfold call. rewrite !handle_call_tool_blocks.
  unfold try_except. rewrite String.eqb_refl.
  rewrite (guard_present _ _ Hv), (guard_present d' v) by done.
  unfold with_NamedTemporaryFile, NamedTemporaryFile, try_finally.
  destruct (w_tempfile w) as [e|stem]; [done|]. by rewrite Hg.
Qed.

(** On a request that carries a script some library call is made. *)
Lemma call_present_logs (d : gmap string pyval) v w s :
  d !! "code_snippet" = Some v →
  events (call "applescript_execute" (Some d) w s) ≠ [].
Proof.
  intros Hv.
  destruct (call_path "applescript_execute" (Some d) w s)
    as [?|_ Hmiss|? ? ? ? ? ? ?|? ? ? ? ? ? ? ? ?]; [done| |done..].
  simpl in Hmiss. congruence.
Qed.

(** X10. The handler reads nothing of a request but the properties that the
    catalogue declares for the tool: two requests that agree on them get the
    same answer, leave the same disk and make the same library calls. *)
Theorem handler_reads_declared_properties_only
    description tool name (d d' : gmap string pyval) w s :
  tool ∈ handle_list_tools description →
  (∀ k, k ∈ declared_properties (inputSchema tool) → d !! k = d' !! k) →
  call name (Some d) w s = call name (Some d') w s.
Proof.
  intros ->%list_elem_of_singleton Hagree.
  apply call_agree; apply Hagree; cbn; rewrite !elem_of_cons; auto.
Qed.

Lemma declared_properties_witness :
  call "applescript_execute" (Some with_extra_key) quiet_world empty_os
  = call "applescript_execute" (Some two_plus_two) quiet_world empty_os.
Proof.
  refine (handler_reads_declared_properties_only "Execute AppleScript code"
            listed_tool "applescript_execute" with_extra_key two_plus_two
            quiet_world empty_os _ _).
  - apply list_elem_of_singleton. reflexivity.
  - intros k Hk. cbn in Hk.
    apply elem_of_cons in Hk as [->|Hk]; [vm_compute; reflexivity|].
    apply elem_of_cons in Hk as [->|Hk]; [vm_compute; reflexivity|].
    by apply elem_of_nil in Hk.
Defined.

(** X11. The names the catalogue advertises are the names the handler
    accepts: a call is turned down as an unknown tool, without any effect,
    exactly when its name is not in the catalogue. *)
Theorem unknown_tools_are_the_unlisted_ones description name arguments w s :
  name ∉ tool_name <$> handle_list_tools description
  ↔ call name arguments w s
    = (Return [TextContent ("Error: Unknown tool: " +:+ name)], s, []).
Proof.
  cbn. rewrite list_elem_of_singleton. split.
  - intros Hname. by apply call_unknown_tool.
  - intros Hcall ->.
    destruct (call_path "applescript_execute" arguments w s)
      as [?|? ?|? ? ? ? ? ? ?|? ? ? ? ? ? ? ? ?]; [done|discriminate..].
Qed.

(** X12. The keys the catalogue marks as required are the keys the handler
    insists on: a call of a listed tool is turned down for a missing
    argument, without any effect, exactly when the request lacks a required
    key. *)
Theorem required_keys_are_checked description tool arguments w s :
  tool ∈ handle_list_tools description →
  (∃ k, k ∈ required_keys (inputSchema tool) ∧ ¬ has_key k arguments)
  ↔ call (tool_name tool) arguments w s
    = (Return [TextContent "Error: Missing code_snippet argument"], s, []).
Proof.
  intros ->%list_elem_of_singleton. cbn. split.
  - intros (k & ->%list_elem_of_singleton & Hk).
    apply call_script_missing. destruct arguments as [d|]; [|done].
    simpl in *. destruct (d !! "code_snippet"); [|done].
    destruct Hk. by eexists.
  - intros Hcall. exists "code_snippet". split; [by apply list_elem_of_singleton|].
    destruct arguments as [d|]; [|by intros []].
    intros [v Hv]. apply (call_present_logs d v w s Hv).
    by rewrite Hcall.
Qed.

Lemma required_keys_witness :
  call "applescript_execute" (Some {[ "timeout" := PyInt 5 ]}) quiet_world
    home_os
  = (Return [TextContent "Error: Missing code_snippet argument"], home_os, []).
Proof.
  refine (proj1 (required_keys_are_checked "Execute AppleScript code"
                   listed_tool (Some {[ "timeout" := PyInt 5 ]}) quiet_world
                   home_os _) _).
  - apply list_elem_of_singleton. reflexivity.
  - exists "code_snippet". split; [by apply list_elem_of_singleton|].
    intros [v Hv]. vm_compute in Hv. discriminate Hv.
Defined.
